(** * BubbleDataType: the record client of the Bubble data API

    A shallow embedding of [src/BubbleDataType.ts].  The class is a thin
    layer over an HTTP transport ([axios]) and a process-wide configuration
    ([BubbleConfig]); both are collaborators of the class and are taken as
    parameters.  Asynchronous functions are modelled by their outcome (a
    fulfilled promise is [Return], a rejected one is [Throw]) together with
    the log of the requests handed to the transport.

    Scope of the model.  Numbers are integers and arrays are lists, without
    the limits of the machine.  An object is known by its own enumerable
    properties, without their order; what its prototype is is not recorded,
    and an instance on which [save] is called has the prototype of its
    class, whose getters [objectUrl] and [headers] it does not shadow.  A concrete
    record class adds to the base class the initialiser of its [type]
    field and nothing else.  The loop of [getAll] has no bound in the
    source; here it takes a number of turns it may use, and answers [None]
    when they do not suffice. *)

From Stdlib Require Import ZArith Ascii String List Lia.
From stdpp Require Import base strings gmap list pretty.

Open Scope string_scope.
Open Scope Z_scope.

(** ** The JavaScript values the client handles *)

Module Js.

(** What the transport delivers as [res.data] is parsed JSON (or a string,
    for a body that is not JSON); [undefined] is what reading a missing
    property yields.  Numbers are the integers: the counts and cursors of
    the API.  An object is the finite map of its own enumerable
    properties. *)
#[local] Unset Elimination Schemes.
Inductive value : Type :=
  | VUndefined
  | VNull
  | VBool (b : bool)
  | VNum (n : Z)
  | VStr (s : string)
  | VArr (xs : list value)
  | VObj (o : gmap string value).
#[local] Set Elimination Schemes.

(** The result of [ToNumber]. *)
Inductive number : Type :=
  | NaN
  | Finite (n : Z).

(** The parts of the language runtime the client calls and that are not
    modelled further, and the one fact on the order of the keys of an
    object that the client depends on and that the map of its properties
    does not keep. *)
Class Runtime : Type := {
  (** [Number::toString] on an integer *)
  NumberToString : Z -> string;
  (** [StringToNumber], the numeric value of a string *)
  StringToNumber : string -> number;
  (** [JSON.stringify] on a value that is not [undefined] *)
  JSON_stringify : value -> string;
  (** whether, in the order of the keys of an object, [__proto__] comes
      before every key named [objectUrl] or [headers] *)
  prototype_key_first : gmap string value -> bool;
}.

(** [ToBoolean]. *)
Definition truthy (v : value) : bool :=
  match v with
  | VUndefined | VNull => false
  | VBool b => b
  | VNum n => negb (n =? 0)
  | VStr s => negb (String.eqb s "")
  | VArr _ | VObj _ => true
  end.

(** [ToString], as a template literal applies it; [None] when it raises a
    [TypeError].  An object without a [toString] of its own takes the one
    of [Object.prototype]; with one, which as parsed JSON is no function,
    neither it nor [valueOf] yields a primitive, and the conversion raises.
    An array is joined with commas, [null] and [undefined] elements giving
    the empty string, and raises when an element does. *)
Fixpoint ToString `{Runtime} (v : value) : option string :=
  match v with
  | VUndefined => Some "undefined"
  | VNull => Some "null"
  | VBool b => Some (if b then "true" else "false")
  | VNum n => Some (NumberToString n)
  | VStr s => Some s
  | VArr xs =>
      String.concat "," <$>
        mapM (fun x => match x with
                       | VUndefined | VNull => Some ""
                       | _ => ToString x
                       end) xs
  | VObj o =>
      if bool_decide (is_Some (o !! "toString")) then None
      else Some "[object Object]"
  end.

(** [ToNumber]; an array or an object goes through [ToPrimitive], which
    comes to its [toString] and raises as that does. *)
Definition ToNumber `{Runtime} (v : value) : option number :=
  match v with
  | VUndefined => Some NaN
  | VNull => Some (Finite 0)
  | VBool b => Some (Finite (if b then 1 else 0))
  | VNum n => Some (Finite n)
  | VStr s => Some (StringToNumber s)
  | VArr _ | VObj _ => StringToNumber <$> ToString v
  end.

(** [v <= k] for a number literal [k]: false when [v] is not a number,
    [None] when the conversion of [v] raises. *)
Definition less_equal `{Runtime} (v : value) (k : Z) : option bool :=
  (fun n => match n with
            | NaN => false
            | Finite n => n <=? k
            end) <$> ToNumber v.

(** [v !== s] for a string literal [s]. *)
Definition strict_ne (v : value) (s : string) : bool :=
  match v with
  | VStr s' => negb (String.eqb s' s)
  | _ => true
  end.

(** [a || b]. *)
Definition or_else (a b : value) : value :=
  if truthy a then a else b.

(** Reading the property [k] of a value that is neither [undefined] nor
    [null].  The property names the client reads ([response], [status],
    [id], [results], [remaining], [constraints], [sort], [sort_field],
    [descending], [cursor], [_id], [type]) are no index, not [length] and
    no member of a built-in prototype, so only an object's own properties
    answer. *)
Definition get (v : value) (k : string) : value :=
  match v with
  | VObj o => default VUndefined (o !! k)
  | _ => VUndefined
  end.

(** Reading the element at an index, [v[i]]. *)
Definition get_index (v : value) (i : nat) : value :=
  match v with
  | VArr xs => default VUndefined (xs !! i)
  | VStr s =>
      match String.get i s with
      | Some c => VStr (String c EmptyString)
      | None => VUndefined
      end
  | VObj o => default VUndefined (o !! pretty i)
  | _ => VUndefined
  end.

(** [base?.k]. *)
Definition opt_get (v : value) (k : string) : value :=
  match v with
  | VUndefined | VNull => VUndefined
  | _ => get v k
  end.

(** [xs.concat(v)]: an array argument is spread, any other value is
    appended as one element. *)
Definition Array_concat (xs : list value) (v : value) : list value :=
  match v with
  | VArr ys => xs ++ ys
  | _ => xs ++ [v]
  end.

(** The own enumerable properties of a value, as [Object.assign] and the
    object spread copy them: the elements of an array and the characters
    of a string under their indices, nothing for the other primitives. *)
Definition own_props (v : value) : gmap string value :=
  match v with
  | VObj o => o
  | VArr xs => list_to_map (imap (fun i x => (pretty i, x)) xs)
  | VStr s =>
      list_to_map
        (imap (fun i c => (pretty i, VStr (String c EmptyString)))
           (list_ascii_of_string s))
  | _ => ∅
  end.

(** Whether [Object.prototype]'s setter of [__proto__] takes a value as
    the new prototype: an object or [null]; it ignores a primitive. *)
Definition sets_prototype (v : value) : bool :=
  match v with
  | VObj _ | VArr _ | VNull => true
  | _ => false
  end.

(** The properties that [Object.assign] leaves on its target as its own:
    those of the source, but for [__proto__], whose assignment runs the
    setter of [Object.prototype] and creates no property. *)
Definition assigned (v : value) : gmap string value :=
  delete "__proto__" (own_props v).

End Js.

Import Js.

(** ** Outcomes, requests and the effect of a call *)

(** What a call can raise: an [Error] the client builds itself, a
    [TypeError] of the runtime (its message is the engine's and is left
    out), or whatever value a collaborator raised. *)
Inductive exn : Type :=
  | Error (message : string)
  | TypeError
  | Raised (v : value).

Inductive outcome (A : Type) : Type :=
  | Return (a : A)
  | Throw (e : exn).
Arguments Return {A} a.
Arguments Throw {A} e.

Inductive method : Type := GET | POST | PATCH.

(** A request as the client hands it to the transport: [axios.get(url,
    {headers, params})], [axios.post(url, data, {headers})],
    [axios.patch(url, data, {headers})]. *)
Record request : Type := {
  req_method : method;
  req_url : string;
  req_data : option value;
  req_headers : list (string * string);
  req_params : list (string * value);
}.

(** Of the transport's response the client reads [data] only. *)
Record AxiosResponse : Type := { data : value }.

(** Modelled from the spec: [BubbleConfig.ts] is not among the sources; the
    configuration holds the tenant application name, an optional version
    label and the API key. *)
Record BubbleConfig : Type := {
  app : string;
  appVersion : option string;
  apiKey : string;
}.

(** A computation threads the log of the requests issued so far. *)
Definition M (A : Type) : Type := list request -> outcome A * list request.

Definition ret {A} (a : A) : M A := fun w => (Return a, w).

Definition throw {A} (e : exn) : M A := fun w => (Throw e, w).

Definition lift {A} (o : outcome A) : M A := fun w => (o, w).

Definition bind {A B} (c : M A) (k : A -> M B) : M B :=
  fun w =>
    match c w with
    | (Return a, w') => k a w'
    | (Throw e, w') => (Throw e, w')
    end.

Notation "'let*' x ':=' c 'in' k" := (bind c (fun x => k))
  (at level 10, x pattern, c at level 99, k at level 200).

(** A conversion of the runtime that may raise a [TypeError]. *)
Definition converted {A} (o : option A) : M A :=
  match o with
  | Some a => ret a
  | None => throw TypeError
  end.

(** [base.k]: reading a property of [undefined] or [null] raises. *)
Definition member (base : value) (k : string) : M value :=
  match base with
  | VUndefined | VNull => throw TypeError
  | _ => ret (get base k)
  end.

(** [base[i]]. *)
Definition member_index (base : value) (i : nat) : M value :=
  match base with
  | VUndefined | VNull => throw TypeError
  | _ => ret (get_index base i)
  end.

(** ** The class *)

Section BubbleDataType.

Context `{Runtime}.

(** [BubbleConfig.get()]: the configuration, or what reading it raises. *)
Variable BubbleConfig_get : outcome BubbleConfig.

(** The transport.  Its answer may depend on the requests it has seen. *)
Variable axios : list request -> request -> outcome AxiosResponse.

(** The [type] a concrete record class declares. *)
Variable type : string.

(** An instance is the map of its own properties. *)
Abbreviation instance := (gmap string value).

Definition send (r : request) : M AxiosResponse :=
  fun w => (axios w r, (w ++ [r])%list).

(** Whether assigning a [__proto__] of the properties takes the instance
    off the prototype of its class before any key named as a getter is
    assigned. *)
Definition leaves_class (props : gmap string value) : bool :=
  match props !! "__proto__" with
  | Some v => sets_prototype v && prototype_key_first props
  | None => false
  end.

(** [Object.assign(this, args)].  [objectUrl] and [headers] are getters of
    the prototype without a setter: assigning to either raises, unless the
    instance has left that prototype by then. *)
Definition constructor (this : instance) (args : value) : M instance :=
  let props := own_props args in
  if bool_decide (is_Some (props !! "objectUrl") \/ is_Some (props !! "headers"))
     && negb (leaves_class props)
  then throw TypeError
  else ret (assigned args ∪ this).

(** [new this(args)] for the concrete class: the base constructor, then the
    initialiser of the class's [type] field. *)
Definition new_this (args : value) : M instance :=
  let* this := constructor ∅ args in
  ret (<["type" := VStr type]> this).

(** [this.k] on an instance. *)
Definition prop (this : instance) (k : string) : value :=
  default VUndefined (this !! k).

(** The object of the [headers] getter, for a configuration. *)
Definition authorization (cfg : BubbleConfig) : list (string * string) :=
  [("Authorization", "Bearer " +:+ apiKey cfg)].

Definition headers (this : instance) : M (list (string * string)) :=
  let* cfg := lift BubbleConfig_get in
  ret (authorization cfg).

Definition versionPart (cfg : BubbleConfig) : string :=
  match appVersion cfg with
  | Some v => if truthy (VStr v) then "/" +:+ v else ""
  | None => ""
  end.

(** The string of the [objectUrl] getter, for a configuration and the text
    of [this.type]. *)
Definition collection (cfg : BubbleConfig) (type_name : string) : string :=
  "https://" +:+ app cfg +:+ ".bubbleapps.io" +:+ versionPart cfg
  +:+ "/api/1.1/obj/" +:+ type_name.

Definition objectUrl (this : instance) : M string :=
  let* cfg := lift BubbleConfig_get in
  let* type_name := converted (ToString (prop this "type")) in
  ret (collection cfg type_name).

(** [axios.get(url, {headers, params})], [axios.post(url, data, {headers})]
    and [axios.patch(url, data, {headers})]. *)
Definition axios_get (url : string) (hdrs : list (string * string))
  (params : list (string * value)) : M AxiosResponse :=
  send {| req_method := GET; req_url := url; req_data := None;
          req_headers := hdrs; req_params := params |}.

Definition axios_post (url : string) (body : value)
  (hdrs : list (string * string)) : M AxiosResponse :=
  send {| req_method := POST; req_url := url; req_data := Some body;
          req_headers := hdrs; req_params := [] |}.

Definition axios_patch (url : string) (body : value)
  (hdrs : list (string * string)) : M AxiosResponse :=
  send {| req_method := PATCH; req_url := url; req_data := Some body;
          req_headers := hdrs; req_params := [] |}.

(** Get an object by ID. *)
Definition getByID (id : string) : M instance :=
  let* this := new_this (VObj ∅) in
  let* url := objectUrl this in
  let* hdrs := headers this in
  let* res := axios_get (url +:+ "/" +:+ id) hdrs [] in
  if negb (truthy (data res))
  then throw (Error "Unexpected response from bubble: no body")
  else
    let* response := member (data res) "response" in
    new_this response.

(** Create a new object in Bubble, returning the ID. *)
Definition create (fields : value) : M value :=
  let* this := new_this (VObj ∅) in
  let* url := objectUrl this in
  let* hdrs := headers this in
  let* res := axios_post (url +:+ "/") fields hdrs in
  if negb (truthy (data res))
  then throw (Error "Unexpected response from bubble: no body")
  else
    let* status := member (data res) "status" in
    let* id := member (data res) "id" in
    if strict_ne status "success" || negb (truthy id)
    then
      let* text := converted (ToString status) in
      throw (Error ("create request failed with status: " +:+ text))
    else ret id.

(** The [params] object of a search request, from the three options read
    off the configuration of the search. *)
Definition params (constraints sort cursor : value) : list (string * value) :=
  [("constraints", VStr (JSON_stringify (or_else constraints (VArr []))));
   ("sort_field", opt_get sort "sort_field");
   ("descending",
     if truthy (opt_get sort "descending") then VStr "true" else VBool false);
   ("cursor", cursor)].

Definition search_params (config : value) : M (list (string * value)) :=
  let* constraints := member config "constraints" in
  let* sort := member config "sort" in
  let* cursor := member config "cursor" in
  ret (params constraints sort cursor).

(** Search all objects of the type.  An [undefined] argument takes the
    default [{}]; the result is the [response] of the body. *)
Definition search (config : value) : M value :=
  let config := match config with VUndefined => VObj ∅ | _ => config end in
  let* this := new_this (VObj ∅) in
  let* url := objectUrl this in
  let* hdrs := headers this in
  let* ps := search_params config in
  let* res := axios_get url hdrs ps in
  if negb (truthy (opt_get (data res) "response"))
  then throw (Error "search request failed")
  else member (data res) "response".

(** [{...config, cursor}]. *)
Definition with_cursor (config : value) (cursor : Z) : value :=
  VObj (<["cursor" := VNum cursor]> (own_props config)).

(** One turn of the loop of [getAll]: the results so far with the page's
    appended, and whether the loop breaks. *)
Definition getAll_page (config : value) (cursor : Z) (results : list value)
  : M (list value * bool) :=
  let* res := search (with_cursor config cursor) in
  let* page := member res "results" in
  let results := Array_concat results page in
  let* remaining := member res "remaining" in
  let* stop := converted (less_equal remaining 0) in
  ret (results, stop).

(** The [while (true)] loop, with a bound on its turns: [None] when the
    loop has not broken within [fuel] turns. *)
Fixpoint getAll_loop (fuel : nat) (config : value) (cursor : Z)
  (results : list value) (w : list request)
  : option (outcome (list value)) * list request :=
  match fuel with
  | O => (None, w)
  | S fuel' =>
      match getAll_page config cursor results w with
      | (Throw e, w') => (Some (Throw e), w')
      | (Return (results', true), w') => (Some (Return results'), w')
      | (Return (results', false), w') =>
          getAll_loop fuel' config (cursor + 1) results' w'
      end
  end.

(** Page through all results to get all objects matching constraints. *)
Definition getAll (fuel : nat) (config : value) (w : list request)
  : option (outcome (list value)) * list request :=
  getAll_loop fuel config 0 [] w.

(** Get the first instance matching the search query. *)
Definition getOne (config : value) : M value :=
  let* searchResults := search config in
  let* response := member searchResults "response" in
  let* results := member response "results" in
  let* first := member_index results 0 in
  ret (or_else first VNull).

Definition save (this : instance) : M unit :=
  let* url := objectUrl this in
  let* hdrs := headers this in
  if negb (truthy (prop this "_id"))
  then throw (Error "Cannot call save on a BubbleDataType without an _id value.")
  else
    let* id := converted (ToString (prop this "_id")) in
    let* _ := axios_patch (url +:+ "/" +:+ id)
                (VObj (assigned (VObj this))) hdrs in
    ret tt.

End BubbleDataType.

(** ** A runtime and a server to run the client on examples *)

Module Examples.

(** The value of a string of decimal digits, most significant first. *)
Fixpoint digits (acc : Z) (s : string) : number :=
  match s with
  | EmptyString => Finite acc
  | String c s' =>
      let d := Z.of_nat (Ascii.nat_of_ascii c) - 48 in
      if (0 <=? d) && (d <=? 9) then digits (10 * acc + d) s' else NaN
  end.

(** The text of a value, for values without strings that need escaping;
    the properties of an object come in the order of the map. *)
Fixpoint json_text (v : value) : string :=
  match v with
  | VUndefined | VNull => "null"
  | VBool b => if b then "true" else "false"
  | VNum n => pretty n
  | VStr s => String (Ascii.ascii_of_nat 34) s +:+ String (Ascii.ascii_of_nat 34) ""
  | VArr xs => "[" +:+ String.concat "," (map json_text xs) +:+ "]"
  | VObj o =>
      "{" +:+ String.concat ","
                (map_fold (fun k x acc =>
                     (String (Ascii.ascii_of_nat 34) k
                      +:+ String (Ascii.ascii_of_nat 34) ":" +:+ json_text x) :: acc)
                   [] o)
      +:+ "}"
  end.

(** The runtime of the examples: decimal numerals for the integers, the
    numeric value of a decimal numeral and of the empty string ([NaN] for
    every other string), [json_text], and objects that have [__proto__],
    when they have it, as their first key. *)
#[export] Instance runtime : Runtime := {|
  NumberToString := pretty;
  StringToNumber := fun s =>
    match s with
    | EmptyString => Finite 0
    | String "-"%char (String _ _ as s') =>
        match digits 0 s' with Finite n => Finite (- n) | NaN => NaN end
    | _ => digits 0 s
    end;
  JSON_stringify := json_text;
  prototype_key_first := fun _ => true;
|}.

(** A server that answers the k-th request it sees with the k-th body of
    a script, and fails once the script is over. *)
Definition serve (bodies : list value)
  : list request -> request -> outcome AxiosResponse :=
  fun w _ =>
    match bodies !! length w with
    | Some d => Return {| data := d |}
    | None => Throw (Raised (VStr "Network Error"))
    end.

(** The body of a search response. *)
Definition page (results : list value) (remaining : Z) : value :=
  VObj {[ "response" :=
            VObj (<["results" := VArr results]>
                    {[ "remaining" := VNum remaining ]}) ]}.

(** A record with one field. *)
Definition named (name : string) : value :=
  VObj {[ "name" := VStr name ]}.

(** The search configuration of the regression test of the spec. *)
Definition open_by_date : value :=
  VObj (<["constraints" :=
            VArr [VObj (<["key" := VStr "status"]>
                          (<["constraint_type" := VStr "equals"]>
                             {[ "value" := VStr "open" ]}))]]>
          {[ "sort" := VObj (<["sort_field" := VStr "createdAt"]>
                               {[ "descending" := VBool true ]}) ]}).

(** The body of a fetch response, the body of a create response, a search
    body that reports no remaining count, and a search body whose payload
    has a [response] of its own. *)
Definition found (fields : gmap string value) : value :=
  VObj {[ "response" := VObj fields ]}.

Definition created (id : string) : value :=
  VObj (<["status" := VStr "success"]> {[ "id" := VStr id ]}).

Definition page_without_remaining (results : list value) : value :=
  VObj {[ "response" := VObj {[ "results" := VArr results ]} ]}.

Definition nested_page (results : list value) : value :=
  VObj {[ "response" :=
            VObj {[ "response" := VObj {[ "results" := VArr results ]} ]} ]}.

(** An object that has no text: its [toString] is a number. *)
Definition untextable : value :=
  VObj {[ "toString" := VNum 1 ]}.

Definition config : BubbleConfig :=
  {| app := "shop"; appVersion := Some "version-test"; apiKey := "k3y" |}.

Definition live : BubbleConfig :=
  {| app := "shop"; appVersion := None; apiKey := "k3y" |}.

End Examples.

(** ** Vocabulary of the statements *)

Section Requests.

Context `{Runtime}.
Variable cfg : BubbleConfig.
Variable type : string.

(** The request of [search] for a configuration object of the search. *)
Definition search_request (config : value) : request :=
  {| req_method := GET; req_url := collection cfg type; req_data := None;
     req_headers := authorization cfg;
     req_params := params (get config "constraints") (get config "sort")
                     (get config "cursor") |}.

(** The request of the turn of [getAll] with cursor [k], and the requests
    of its first [n] turns. *)
Definition turn (config : value) (k : nat) : request :=
  search_request (with_cursor config (Z.of_nat k)).

Definition turns (config : value) (n : nat) : list request :=
  map (turn config) (seq 0 n).

(** The requests of [getByID] and [create]. *)
Definition getByID_request (id : string) : request :=
  {| req_method := GET; req_url := collection cfg type +:+ "/" +:+ id;
     req_data := None; req_headers := authorization cfg; req_params := [] |}.

Definition create_request (fields : value) : request :=
  {| req_method := POST; req_url := collection cfg type +:+ "/";
     req_data := Some fields; req_headers := authorization cfg;
     req_params := [] |}.

(** The request of [save] on an instance, given the texts of its [type]
    and of its [_id]: its payload is what [Object.assign] copies of the
    instance. *)
Definition save_request (type_name id : string) (this : gmap string value)
  : request :=
  {| req_method := PATCH;
     req_url := collection cfg type_name +:+ "/" +:+ id;
     req_data := Some (VObj (assigned (VObj this)));
     req_headers := authorization cfg; req_params := [] |}.


End Requests.

(** The requests a run adds to the log. *)
Definition sent {X : Type} (run : list request -> X * list request)
  (w : list request) : list request :=
  drop (length w) (snd (run w)).

(** The value of a parameter of a request, if it has it. *)
Definition param (r : request) (k : string) : option value :=
  snd <$> find (fun kv => String.eqb (fst kv) k) (req_params r).

(** A response body that carries a page: the results array [rs] and the
    count [remaining] of records not returned yet. *)
Definition is_page (body : value) (rs : list value) (remaining : Z) : Prop :=
  get (get body "response") "results" = VArr rs
  /\ get (get body "response") "remaining" = VNum remaining.

(** What [search] answers once the transport has: the payload of the body,
    or the failure of the transport, or the error of a missing payload. *)
Definition search_outcome (o : outcome AxiosResponse) : outcome value :=
  match o with
  | Return res =>
      if truthy (opt_get (data res) "response")
      then Return (get (data res) "response")
      else Throw (Error "search request failed")
  | Throw e => Throw e
  end.

(** ** How each operation runs under a configuration that can be read *)

(** Runs the straight-line part of an operation. *)
Ltac run_op :=
  cbv [bind objectUrl headers lift converted ret throw
       axios_get axios_post axios_patch send search_params];
  repeat match goal with
    | |- context [ToString (prop {[ "type" := VStr ?t ]} "type")] =>
        change (ToString (prop {[ "type" := VStr t ]} "type")) with (Some t)
    end;
  cbn -[collection authorization params String.append truthy member
        ToString less_equal assigned prop].


Section Runs.

Context `{Runtime}.
Variable cfg : BubbleConfig.
Variable axios : list request -> request -> outcome AxiosResponse.
Variable type : string.

Lemma new_this_empty (w : list request) :
  new_this type (VObj ∅) w = (Return {[ "type" := VStr type ]}, w).
Proof. reflexivity. Qed.

Lemma new_this_undefined (w : list request) :
  new_this type VUndefined w = (Return {[ "type" := VStr type ]}, w).
Proof. reflexivity. Qed.


Lemma null_or_not (v : value) : v = VNull \/ v <> VNull.
Proof. destruct v; (left; reflexivity) || (right; discriminate). Qed.

Lemma member_truthy (v : value) (k : string) (w : list request) :
  truthy v = true -> member v k w = (Return (get v k), w).
Proof. destruct v; simpl; intros Hv; try discriminate; reflexivity. Qed.

Lemma opt_get_truthy (v : value) (k : string) :
  truthy (opt_get v k) = true -> truthy v = true /\ opt_get v k = get v k.
Proof. destruct v; simpl; intros Hv; try discriminate; auto. Qed.

Lemma search_run (config : value) (w : list request) :
  config <> VNull ->
  search (Return cfg) axios type config w =
    (search_outcome (axios w (search_request cfg type config)),
     (w ++ [search_request cfg type config])%list).
Proof.
  intros Hc.
  assert (Hrun : forall c, c <> VNull -> c <> VUndefined ->
    (let* this := new_this type (VObj ∅) in
     let* url := objectUrl (Return cfg) this in
     let* hdrs := headers (Return cfg) this in
     let* ps := search_params c in
     let* res := axios_get axios url hdrs ps in
     if negb (truthy (opt_get (data res) "response"))
     then throw (Error "search request failed")
     else member (data res) "response") w =
    (search_outcome (axios w (search_request cfg type c)),
     (w ++ [search_request cfg type c])%list)).
  { intros c Hn Hu.
    unfold bind at 1. rewrite new_this_empty. run_op.
    destruct c; try congruence; cbn -[params collection authorization];
      unfold search_request;
      (destruct (axios w _) as [res|e]; cbn; [|reflexivity];
       destruct (truthy (opt_get (data res) "response")) eqn:Hp; cbn;
       [apply opt_get_truthy in Hp as [Hd _]; now rewrite member_truthy
       |reflexivity]). }
  destruct config; try congruence; try (apply Hrun; congruence).
  exact (Hrun (VObj ∅) ltac:(congruence) ltac:(congruence)).
Qed.

Lemma search_outcome_payload (body : value) :
  truthy (get body "response") = true ->
  search_outcome (Return {| data := body |}) = Return (get body "response").
Proof.
  intros Hp. unfold search_outcome. cbn [data].
  destruct body; try (cbn in Hp; discriminate).
  cbn [opt_get]. now rewrite Hp.
Qed.

Lemma search_outcome_truthy (o : outcome AxiosResponse) (p : value) :
  search_outcome o = Return p -> truthy p = true.
Proof.
  destruct o as [res|e]; cbn; [|discriminate].
  destruct (truthy (opt_get (data res) "response")) eqn:Hp; [|discriminate].
  intros [= <-]. apply opt_get_truthy in Hp as Hq.
  destruct Hq as [_ Hq]. now rewrite <- Hq.
Qed.

Lemma with_cursor_not_null (config : value) (c : Z) :
  with_cursor config c <> VNull.
Proof. discriminate. Qed.

(** One turn: the request of the turn is sent, a failing search ends the
    call, a page extends the results and decides whether the loop
    breaks. *)
Lemma getAll_page_run (config : value) (k : nat) (acc : list value)
  (w : list request) :
  getAll_page (Return cfg) axios type config (Z.of_nat k) acc w =
    (match search_outcome (axios w (turn cfg type config k)) with
     | Return p =>
         match less_equal (get p "remaining") 0 with
         | Some stop => Return (Array_concat acc (get p "results"), stop)
         | None => Throw TypeError
         end
     | Throw e => Throw e
     end, (w ++ [turn cfg type config k])%list).
Proof.
  unfold getAll_page. unfold bind at 1.
  rewrite search_run by apply with_cursor_not_null.
  fold (turn cfg type config k).
  destruct (search_outcome _) as [p|e] eqn:Hs; [|reflexivity].
  apply search_outcome_truthy in Hs.
  unfold bind. rewrite !member_truthy by exact Hs.
  destruct (less_equal _ _); reflexivity.
Qed.

(** The loop runs through pages that report records remaining. *)
Lemma getAll_loop_continue (config : value) (ps : list value) :
  forall (fuel from : nat) (acc : list value) (w : list request),
  (forall i p, ps !! i = Some p ->
     search_outcome
       (axios (w ++ map (turn cfg type config) (seq from i))%list
          (turn cfg type config (from + i))) = Return p
     /\ less_equal (get p "remaining") 0 = Some false) ->
  getAll_loop (Return cfg) axios type (length ps + fuel) config
    (Z.of_nat from) acc w =
  getAll_loop (Return cfg) axios type fuel config
    (Z.of_nat (from + length ps))
    (foldl Array_concat acc ((fun p => get p "results") <$> ps))
    (w ++ map (turn cfg type config) (seq from (length ps)))%list.
Proof.
  induction ps as [|p ps IH]; intros fuel from acc w Hps.
  - cbn. now rewrite Nat.add_0_r, app_nil_r.
  - destruct (Hps 0%nat p eq_refl) as [Hs Hle].
    cbn [seq map] in Hs. rewrite app_nil_r, Nat.add_0_r in Hs.
    cbn [length Nat.add getAll_loop].
    rewrite getAll_page_run, Hs, Hle.
    replace (Z.of_nat from + 1) with (Z.of_nat (S from)) by lia.
    rewrite IH.
    + cbn [fmap list_fmap foldl seq map].
      replace (S from + length ps)%nat with (from + S (length ps))%nat by lia.
      now rewrite <- app_assoc.
    + intros i q Hq. specialize (Hps (S i) q Hq).
      cbn [seq map] in Hps. rewrite <- app_assoc.
      replace (S from + i)%nat with (from + S i)%nat by lia.
      exact Hps.
Qed.

Lemma foldl_concat_arrays (rss : list (list value)) (acc : list value) :
  foldl Array_concat acc (VArr <$> rss) = (acc ++ concat rss)%list.
Proof.
  revert acc. induction rss as [|rs rss IH]; intros acc; cbn.
  - now rewrite app_nil_r.
  - now rewrite IH, app_assoc.
Qed.

Lemma is_page_payload (body : value) (rs : list value) (r : Z) :
  is_page body rs r ->
  search_outcome (Return {| data := body |}) = Return (get body "response")
  /\ get (get body "response") "results" = VArr rs
  /\ less_equal (get (get body "response") "remaining") 0 = Some (r <=? 0).
Proof.
  intros [Hrs Hr]. split; [|split]; [|exact Hrs|now rewrite Hr].
  apply search_outcome_payload.
  destruct (get body "response"); cbn in Hrs; try discriminate. reflexivity.
Qed.

Lemma turn_cursor (config : value) (k : nat) :
  param (turn cfg type config k) "cursor" = Some (VNum (Z.of_nat k)).
Proof.
  unfold param, turn, search_request, params, with_cursor. cbn.
  now rewrite lookup_insert_eq.
Qed.

End Runs.

(** ** Pagination: [getAll] *)

Section Pagination.

Context `{Runtime}.
Variable cfg : BubbleConfig.
Variable axios : list request -> request -> outcome AxiosResponse.
Variable type : string.

(** The loop runs through pages that carry a results array and a positive
    count of remaining records, appending each array. *)
Lemma getAll_loop_pages (config : value) (pages : list (list value * Z)) :
  forall (fuel from : nat) (acc : list value) (w : list request),
  (forall i rs r, pages !! i = Some (rs, r) ->
     0 < r /\
     exists body,
       axios (w ++ map (turn cfg type config) (seq from i))%list
         (turn cfg type config (from + i)) = Return {| data := body |}
       /\ is_page body rs r) ->
  getAll_loop (Return cfg) axios type (length pages + fuel) config
    (Z.of_nat from) acc w =
  getAll_loop (Return cfg) axios type fuel config
    (Z.of_nat (from + length pages))
    (acc ++ concat (fst <$> pages))%list
    (w ++ map (turn cfg type config) (seq from (length pages)))%list.
Proof.
  induction pages as [|[rs r] pages IH]; intros fuel from acc w Hps.
  - cbn. now rewrite Nat.add_0_r, !app_nil_r.
  - destruct (Hps 0%nat rs r eq_refl) as [Hr [body [Hax Hpg]]].
    cbn [seq map] in Hax. rewrite app_nil_r, Nat.add_0_r in Hax.
    apply is_page_payload in Hpg as [Hs [Hrs Hle]].
    cbn [length Nat.add getAll_loop].
    rewrite getAll_page_run, Hax, Hs, Hrs, Hle.
    replace (r <=? 0) with false by (symmetry; apply Z.leb_gt; lia).
    replace (Z.of_nat from + 1) with (Z.of_nat (S from)) by lia.
    rewrite IH.
    + cbn [fmap list_fmap concat seq map Array_concat fst].
      replace (S from + length pages)%nat
        with (from + S (length pages))%nat by lia.
      now rewrite <- !app_assoc.
    + intros i rs' r' Hi. specialize (Hps (S i) rs' r' Hi).
      cbn [seq map] in Hps. rewrite <- app_assoc.
      replace (S from + i)%nat with (from + S i)%nat by lia.
      exact Hps.
Qed.

(** C2. Whatever pages the searches return, [getAll] sends the search
    requests with the cursors 0, 1, 2, ... in this order, one per page, up
    to and including the first page whose remaining count is zero or less,
    and returns the concatenation of the results arrays of the pages, in
    the order of the requests. *)
Theorem getAll_concatenates_pages (config : value) (w : list request)
  (init : list (list value * Z)) (rs_last : list value) (r_last : Z)
  (fuel : nat) :
  (forall k rs r, (init ++ [(rs_last, r_last)])%list !! k = Some (rs, r) ->
     exists body,
       axios (w ++ turns cfg type config k)%list (turn cfg type config k)
         = Return {| data := body |}
       /\ is_page body rs r) ->
  Forall (fun pg => 0 < snd pg) init ->
  r_last <= 0 ->
  (length init < fuel)%nat ->
  getAll (Return cfg) axios type fuel config w =
    (Some (Return (concat (fst <$> init) ++ rs_last)%list),
     (w ++ turns cfg type config (S (length init)))%list)
  /\ forall k, param (turn cfg type config k) "cursor"
               = Some (VNum (Z.of_nat k)).
Proof.
  intros Hax Hinit Hlast Hfuel. split; [|intros k; apply turn_cursor].
  destruct (Nat.le_exists_sub (S (length init)) fuel Hfuel) as [f [-> _]].
  replace (f + S (length init))%nat with (length init + S f)%nat by lia.
  unfold getAll. change 0 with (Z.of_nat 0).
  rewrite getAll_loop_pages.
  - destruct (Hax (length init) rs_last r_last) as [body [Hb Hpg]].
    { rewrite lookup_app_r by lia. now rewrite Nat.sub_diag. }
    apply is_page_payload in Hpg as [Hs [Hrs Hle]].
    cbn [getAll_loop Nat.add app]. rewrite getAll_page_run.
    unfold turns in Hb. rewrite Hb, Hs, Hrs, Hle.
    replace (r_last <=? 0) with true by (symmetry; apply Z.leb_le; lia).
    unfold turns. rewrite seq_S, map_app, app_assoc. reflexivity.
  - intros i rs r Hi. split.
    + rewrite Forall_lookup in Hinit. exact (Hinit i (rs, r) Hi).
    + apply (Hax i rs r). now apply lookup_app_l_Some.
Qed.

(** C3. When the first page carries no result and reports nothing
    remaining, [getAll] returns the empty sequence and has sent exactly one
    search request. *)
Theorem getAll_no_match (config : value) (w : list request) (body : value)
  (fuel : nat) :
  axios w (turn cfg type config 0) = Return {| data := body |} ->
  is_page body [] 0 ->
  (0 < fuel)%nat ->
  getAll (Return cfg) axios type fuel config w =
    (Some (Return []), (w ++ [turn cfg type config 0])%list).
Proof.
  intros Hax Hpg Hfuel. destruct fuel as [|f]; [lia|].
  apply is_page_payload in Hpg as [Hs [Hrs Hle]].
  unfold getAll. cbn [getAll_loop]. change 0 with (Z.of_nat 0) at 1.
  rewrite getAll_page_run, Hax, Hs, Hrs, Hle. reflexivity.
Qed.

(** C8. When the search of some turn fails after any number of pages that
    asked for more, [getAll] fails with that very failure: its outcome
    carries no result, so what the earlier pages brought is not returned. *)
Theorem getAll_failure_discards (config : value) (w : list request)
  (bodies : list value) (e : exn) (fuel : nat) :
  (forall k body, bodies !! k = Some body ->
     axios (w ++ turns cfg type config k)%list (turn cfg type config k)
       = Return {| data := body |}
     /\ truthy (get body "response") = true
     /\ less_equal (get (get body "response") "remaining") 0 = Some false) ->
  fst (search (Return cfg) axios type
         (with_cursor config (Z.of_nat (length bodies)))
         (w ++ turns cfg type config (length bodies))%list) = Throw e ->
  (length bodies < fuel)%nat ->
  getAll (Return cfg) axios type fuel config w =
    (Some (Throw e), (w ++ turns cfg type config (S (length bodies)))%list).
Proof.
  intros Hax Hfail Hfuel.
  destruct (Nat.le_exists_sub (S (length bodies)) fuel Hfuel) as [f [-> _]].
  replace (f + S (length bodies))%nat
    with (length ((fun b => get b "response") <$> bodies) + S f)%nat
    by (rewrite length_fmap; lia).
  unfold getAll. change 0 with (Z.of_nat 0).
  rewrite getAll_loop_continue.
  - rewrite length_fmap. cbn [getAll_loop Nat.add].
    rewrite getAll_page_run.
    rewrite search_run in Hfail by apply with_cursor_not_null.
    cbn [fst] in Hfail. unfold turns in Hfail.
    fold (turn cfg type config (length bodies)) in Hfail.
    rewrite Hfail. unfold turns. rewrite seq_S, map_app, app_assoc.
    reflexivity.
  - intros i p Hp. rewrite list_lookup_fmap in Hp.
    destruct (bodies !! i) as [body|] eqn:Hb; [|discriminate].
    injection Hp as <-. destruct (Hax i body Hb) as [Hr [Ht Hle]].
    unfold turns in Hr. cbn [Nat.add]. rewrite Hr. split; [|exact Hle].
    now apply search_outcome_payload.
Qed.

End Pagination.

(** ** The single-request operations *)

Section Operations.

Context `{Runtime}.
Variable cfg : BubbleConfig.
Variable axios : list request -> request -> outcome AxiosResponse.
Variable type : string.

Lemma strict_ne_spec (v : value) (s : string) :
  strict_ne v s = false <-> v = VStr s.
Proof.
  destruct v; cbn; try (split; [discriminate|congruence]).
  rewrite negb_false_iff, String.eqb_eq. split; congruence.
Qed.

Lemma create_run (fields : value) (w : list request) :
  create (Return cfg) axios type fields w =
    (match axios w (create_request cfg type fields) with
     | Return res =>
         if truthy (data res) then
           if strict_ne (get (data res) "status") "success"
              || negb (truthy (get (data res) "id"))
           then
             match ToString (get (data res) "status") with
             | Some text =>
                 Throw (Error ("create request failed with status: "
                               +:+ text))
             | None => Throw TypeError
             end
           else Return (get (data res) "id")
         else Throw (Error "Unexpected response from bubble: no body")
     | Throw e => Throw e
     end, (w ++ [create_request cfg type fields])%list).
Proof.
  unfold create. unfold bind at 1. rewrite new_this_empty. run_op.
  fold (create_request cfg type fields).
  destruct (axios w _) as [res|e]; [|reflexivity].
  destruct (truthy (data res)) eqn:Hd; cbn [negb]; [|reflexivity].
  rewrite !member_truthy by exact Hd.
  destruct (strict_ne _ _ || negb _); [|reflexivity].
  destruct (ToString _); reflexivity.
Qed.

Lemma getByID_run (id : string) (w : list request) :
  getByID (Return cfg) axios type id w =
    (match axios w (getByID_request cfg type id) with
     | Return res =>
         if truthy (data res)
         then fst (new_this type (get (data res) "response") w)
         else Throw (Error "Unexpected response from bubble: no body")
     | Throw e => Throw e
     end, (w ++ [getByID_request cfg type id])%list).
Proof.
  unfold getByID. unfold bind at 1. rewrite new_this_empty. run_op.
  fold (getByID_request cfg type id).
  destruct (axios w _) as [res|e]; [|reflexivity].
  destruct (truthy (data res)) eqn:Hd; cbn [negb]; [|reflexivity].
  rewrite member_truthy by exact Hd.
  unfold new_this, constructor, bind, throw, ret.
  destruct (bool_decide _); [destruct (leaves_class _)|]; reflexivity.
Qed.

Lemma save_run (g : outcome BubbleConfig) (this : gmap string value)
  (w : list request) :
  save g axios this w =
    match g with
    | Throw e => (Throw e, w)
    | Return c =>
        match ToString (prop this "type") with
        | None => (Throw TypeError, w)
        | Some type_name =>
            if truthy (prop this "_id") then
              match ToString (prop this "_id") with
              | None => (Throw TypeError, w)
              | Some id =>
                  (match axios w (save_request c type_name id this) with
                   | Return _ => Return tt
                   | Throw e => Throw e
                   end, (w ++ [save_request c type_name id this])%list)
              end
            else
              (Throw (Error "Cannot call save on a BubbleDataType without an _id value."), w)
        end
    end.
Proof.
  unfold save. destruct g as [c|e]; run_op; [|reflexivity].
  destruct (ToString (prop this "type")) as [type_name|]; [|reflexivity].
  destruct (truthy (prop this "_id")); cbn [negb]; [|reflexivity].
  destruct (ToString (prop this "_id")) as [id|]; [|reflexivity].
  fold (save_request c type_name id this).
  destruct (axios w _); reflexivity.
Qed.

(** [getOne] reads [response] off what [search] returned, which is the
    payload already. *)
Lemma getOne_run (config : value) (w : list request) :
  getOne (Return cfg) axios type config w =
    (match fst (search (Return cfg) axios type config w) with
     | Return p =>
         match get p "response" with
         | VUndefined | VNull => Throw TypeError
         | r =>
             match get r "results" with
             | VUndefined | VNull => Throw TypeError
             | rs => Return (or_else (get_index rs 0) VNull)
             end
         end
     | Throw e => Throw e
     end, snd (search (Return cfg) axios type config w)).
Proof.
  unfold getOne. unfold bind at 1.
  destruct (search _ _ _ config w) as [[p|e] w'] eqn:Hs; [|reflexivity].
  assert (Hp : truthy p = true).
  { destruct (null_or_not config) as [->|Hn].
    - discriminate Hs.
    - rewrite search_run in Hs by exact Hn. injection Hs as Hs _.
      now apply search_outcome_truthy in Hs. }
  cbn [fst snd]. unfold bind at 1. rewrite member_truthy by exact Hp.
  destruct (get p "response") as [| | | | |xs|o]; try reflexivity;
    cbn -[get get_index or_else];
    (destruct (get _ "results"); reflexivity).
Qed.

Lemma search_sent (config : value) (w : list request) :
  sent (search (Return cfg) axios type config) w =
    match config with
    | VNull => []
    | _ => [search_request cfg type config]
    end.
Proof.
  unfold sent. destruct (null_or_not config) as [->|Hn].
  - cbn [search]. run_op. now rewrite drop_all.
  - rewrite search_run by exact Hn. cbn [snd]. rewrite drop_app_length.
    destruct config; congruence.
Qed.

Lemma getAll_loop_log (config : value) (fuel : nat) :
  forall (from : nat) (acc : list value) (w : list request),
  exists n,
    snd (getAll_loop (Return cfg) axios type fuel config (Z.of_nat from) acc w)
    = (w ++ map (turn cfg type config) (seq from n))%list.
Proof.
  induction fuel as [|fuel IH]; intros from acc w.
  - exists 0%nat. cbn. now rewrite app_nil_r.
  - cbn [getAll_loop]. rewrite getAll_page_run.
    destruct (search_outcome _) as [p|e];
      [destruct (less_equal (get p "remaining") 0) as [[|]|]|];
      try (exists 1%nat; reflexivity).
    replace (Z.of_nat from + 1) with (Z.of_nat (S from)) by lia.
    destruct (IH (S from) (Array_concat acc (get p "results"))
                (w ++ [turn cfg type config from])%list) as [n Hn].
    exists (S n). rewrite Hn. cbn [seq map]. now rewrite <- app_assoc.
Qed.


End Operations.

(** ** The claims on the single-request operations *)

Section Claims.

Context `{Runtime}.
Variable cfg : BubbleConfig.
Variable axios : list request -> request -> outcome AxiosResponse.
Variable type : string.

(** C5, as amended. Given the body the transport answers the create request with,
    [create] raises exactly when the body is absent, or its status is not
    the string "success", or it carries no identifier; otherwise the
    identifier of the body is returned.  In the two latter cases the error
    is the create failure whose message ends in the text of the status:
    the status itself when it is a string, "undefined" when there is none;
    only a status whose conversion to text raises, which takes an object or
    an array, makes [create] raise that [TypeError] instead. *)
Theorem create_raises_exactly (fields body : value) (w : list request) :
  axios w (create_request cfg type fields) = Return {| data := body |} ->
  ((exists e, fst (create (Return cfg) axios type fields w) = Throw e)
   <-> (truthy body = false
        \/ get body "status" <> VStr "success"
        \/ truthy (get body "id") = false))
  /\ (truthy body = false ->
      fst (create (Return cfg) axios type fields w)
      = Throw (Error "Unexpected response from bubble: no body"))
  /\ (truthy body = true ->
      get body "status" <> VStr "success" \/ truthy (get body "id") = false ->
      (forall text, ToString (get body "status") = Some text ->
         fst (create (Return cfg) axios type fields w)
         = Throw (Error ("create request failed with status: " +:+ text)))
      /\ (forall s, get body "status" = VStr s ->
            fst (create (Return cfg) axios type fields w)
            = Throw (Error ("create request failed with status: " +:+ s)))
      /\ (get body "status" = VUndefined ->
          fst (create (Return cfg) axios type fields w)
          = Throw (Error "create request failed with status: undefined"))
      /\ (ToString (get body "status") = None ->
          fst (create (Return cfg) axios type fields w) = Throw TypeError
          /\ ((exists o, get body "status" = VObj o)
              \/ (exists xs, get body "status" = VArr xs))))
  /\ (truthy body = true ->
      get body "status" = VStr "success" ->
      truthy (get body "id") = true ->
      fst (create (Return cfg) axios type fields w) = Return (get body "id")).
Proof.
  intros Hax. rewrite create_run, Hax. cbn [fst data].
  assert (Hor : strict_ne (get body "status") "success"
                || negb (truthy (get body "id")) = true
                <-> (get body "status" <> VStr "success"
                     \/ truthy (get body "id") = false)).
  { rewrite orb_true_iff, negb_true_iff.
    rewrite <- (strict_ne_spec (get body "status") "success").
    destruct (strict_ne _ _); intuition congruence. }
  destruct (truthy body) eqn:Hb.
  - destruct (strict_ne _ _ || negb _) eqn:Hc.
    + clear Hc. assert (Hc := proj1 Hor eq_refl).
      split; [|split; [discriminate|split]].
      * split; [auto|]. intros _. destruct (ToString _); eauto.
      * intros _ _. split; [|split; [|split]].
        -- intros text ->. reflexivity.
        -- intros s ->. reflexivity.
        -- intros ->. reflexivity.
        -- intros Hn. rewrite Hn. split; [reflexivity|].
           destruct (get body "status"); try discriminate Hn; eauto.
      * intros _ Hs Hi. destruct Hc; congruence.
    + assert (Hn : ~ (get body "status" <> VStr "success"
                      \/ truthy (get body "id") = false)).
      { intros Hc'. apply Hor in Hc'. discriminate. }
      split; [|split; [discriminate|split]].
      * split; [intros [e He]; discriminate|].
        intros [Hf|Hf]; [discriminate|tauto].
      * intros _ Hc'. tauto.
      * reflexivity.
  - split; [|split; [reflexivity|split]]; try discriminate.
    split; eauto.
Qed.

(** C6. The [descending] parameter of a search request is the string "true"
    when the [descending] flag of the sort is set, and the boolean [false]
    otherwise, in particular when there is no sort; it is never the string
    "false". *)
Theorem search_descending (config : value) (w : list request) :
  config <> VNull ->
  exists r,
    sent (search (Return cfg) axios type config) w = [r]
    /\ param r "descending"
       = Some (if truthy (opt_get (get config "sort") "descending")
               then VStr "true" else VBool false)
    /\ (get config "sort" = VUndefined ->
        param r "descending" = Some (VBool false))
    /\ param r "descending" <> Some (VStr "false").
Proof.
  intros Hn. exists (search_request cfg type config).
  rewrite search_sent.
  assert (Hd : param (search_request cfg type config) "descending"
               = Some (if truthy (opt_get (get config "sort") "descending")
                       then VStr "true" else VBool false)) by reflexivity.
  split; [|split; [|split]].
  - destruct config; congruence.
  - exact Hd.
  - intros Hs. rewrite Hd, Hs. reflexivity.
  - rewrite Hd. destruct (truthy _); discriminate.
Qed.

(** C10. A body that is present but has no [response] makes [getByID]
    return an instance built from no field: only the [type] that the class
    itself initialises is there, every other attribute is absent. *)
Theorem getByID_body_without_response (id : string) (body : value)
  (w : list request) :
  axios w (getByID_request cfg type id) = Return {| data := body |} ->
  truthy body = true ->
  get body "response" = VUndefined ->
  getByID (Return cfg) axios type id w =
    (Return {[ "type" := VStr type ]},
     (w ++ [getByID_request cfg type id])%list)
  /\ forall k, k <> "type" ->
       prop ({[ "type" := VStr type ]} : gmap string value) k = VUndefined.
Proof.
  intros Hax Hb Hr. split.
  - rewrite getByID_run, Hax. cbn [data]. rewrite Hb, Hr. reflexivity.
  - intros k Hk. unfold prop. now rewrite lookup_singleton_ne.
Qed.


(** C9. [save] reads the configuration, for the URL and the header, before
    it looks at [_id]: when reading the configuration raises, [save] raises
    that, with or without an [_id], and sends nothing; so do the two
    getters. *)
Theorem save_reads_configuration_first (e : exn) (this : gmap string value)
  (w : list request) :
  objectUrl (Throw e) this w = (Throw e, w)
  /\ headers (Throw e) this w = (Throw e, w)
  /\ save (Throw e) axios this w = (Throw e, w).
Proof.
  split; [reflexivity|split; [reflexivity|]].
  now rewrite save_run.
Qed.


(** Whenever [search] returns a payload without a [response] of its own,
    as every payload of the API is, [getOne] raises. *)
Lemma getOne_raises_on_payload (config p : value) (w : list request) :
  fst (search (Return cfg) axios type config w) = Return p ->
  get p "response" = VUndefined ->
  fst (getOne (Return cfg) axios type config w) = Throw TypeError.
Proof. intros Hs Hp. rewrite getOne_run, Hs, Hp. reflexivity. Qed.

End Claims.

(** ** Further properties of the operations *)

Section Further.

Context `{Runtime}.
Variable cfg : BubbleConfig.
Variable axios : list request -> request -> outcome AxiosResponse.
Variable type : string.

Lemma opt_get_get (v : value) (k : string) : opt_get v k = get v k.
Proof. destruct v; reflexivity. Qed.

(** [new this(o)] on an object: a property named as one of the two getters
    raises while the instance is of its class; otherwise the properties
    are copied, but for [__proto__], and [type] is set. *)
Lemma new_this_object (o : gmap string value) (w : list request) :
  new_this type (VObj o) w =
    (if bool_decide (is_Some (o !! "objectUrl") \/ is_Some (o !! "headers"))
        && negb (leaves_class o)
     then Throw TypeError
     else Return (<["type" := VStr type]> (delete "__proto__" o)), w).
Proof.
  unfold new_this, constructor, bind. cbn [own_props].
  destruct (bool_decide _ && negb _); [reflexivity|].
  unfold ret, assigned. cbn [own_props]. now rewrite (right_id_L ∅ (∪)).
Qed.

(** X1. When the body carries a [response] object, [getByID] returns an
    instance that has, as its own properties, those of that object, except
    that [type] is the one of the class and that a [__proto__] of the
    object is not among them. *)
Theorem getByID_returns_record (id : string) (body : value)
  (o : gmap string value) (w : list request) :
  axios w (getByID_request cfg type id) = Return {| data := body |} ->
  get body "response" = VObj o ->
  o !! "objectUrl" = None ->
  o !! "headers" = None ->
  exists inst : gmap string value,
    getByID (Return cfg) axios type id w =
      (Return inst, (w ++ [getByID_request cfg type id])%list)
    /\ inst !! "type" = Some (VStr type)
    /\ inst !! "__proto__" = None
    /\ forall k, k <> "type" -> k <> "__proto__" -> inst !! k = o !! k.
Proof.
  intros Hax Hr Hu Hh.
  exists (<["type" := VStr type]> (delete "__proto__" o)).
  split; [|split; [|split]].
  - rewrite getByID_run, Hax. cbn [data].
    assert (Hb : truthy body = true)
      by (destruct body; try discriminate Hr; reflexivity).
    rewrite Hb, Hr, new_this_object, Hu, Hh.
    rewrite bool_decide_eq_false_2; [reflexivity|].
    intros [[x Hx]|[x Hx]]; discriminate.
  - now rewrite lookup_insert_eq.
  - rewrite lookup_insert_ne by discriminate. apply lookup_delete_eq.
  - intros k Hk Hp. rewrite lookup_insert_ne by congruence.
    rewrite lookup_delete_ne by congruence. reflexivity.
Qed.

(** X2. An empty body makes [getByID] raise the no-body error, after its
    one request; nothing tells a missing record from another failure. *)
Theorem getByID_no_body (id : string) (body : value) (w : list request) :
  axios w (getByID_request cfg type id) = Return {| data := body |} ->
  truthy body = false ->
  getByID (Return cfg) axios type id w =
    (Throw (Error "Unexpected response from bubble: no body"),
     (w ++ [getByID_request cfg type id])%list).
Proof. intros Hax Hb. rewrite getByID_run, Hax. cbn [data]. now rewrite Hb. Qed.

(** X3. A record with a field named [objectUrl] or [headers] cannot be
    loaded: assigning it to the instance meets the getter of that name,
    which has no setter, and [getByID] raises a [TypeError].  This is so
    when the record has no [__proto__], and more generally unless a
    [__proto__] that comes before those keys has taken the instance off the
    prototype of its class: then the instance is returned. *)
Theorem getByID_getter_named_field (id : string) (body : value)
  (o : gmap string value) (w : list request) :
  axios w (getByID_request cfg type id) = Return {| data := body |} ->
  get body "response" = VObj o ->
  is_Some (o !! "objectUrl") \/ is_Some (o !! "headers") ->
  (o !! "__proto__" = None ->
   getByID (Return cfg) axios type id w =
     (Throw TypeError, (w ++ [getByID_request cfg type id])%list))
  /\ (leaves_class o = false ->
      getByID (Return cfg) axios type id w =
        (Throw TypeError, (w ++ [getByID_request cfg type id])%list))
  /\ (leaves_class o = true ->
      getByID (Return cfg) axios type id w =
        (Return (<["type" := VStr type]> (delete "__proto__" o)),
         (w ++ [getByID_request cfg type id])%list)).
Proof.
  intros Hax Hr Hk.
  assert (Hb : truthy body = true)
    by (destruct body; try discriminate Hr; reflexivity).
  assert (Hrun : getByID (Return cfg) axios type id w =
    (if negb (leaves_class o) then Throw TypeError
     else Return (<["type" := VStr type]> (delete "__proto__" o)),
     (w ++ [getByID_request cfg type id])%list)).
  { rewrite getByID_run, Hax. cbn [data].
    rewrite Hb, Hr, new_this_object, bool_decide_eq_true_2 by exact Hk.
    cbn [andb fst]. reflexivity. }
  rewrite Hrun. split; [|split].
  - intros Hp. unfold leaves_class. now rewrite Hp.
  - intros ->. reflexivity.
  - intros ->. reflexivity.
Qed.

(** X4. When reading the configuration raises, every static operation
    raises that and sends nothing. *)
Theorem static_operations_read_configuration_first (e : exn) (id : string)
  (fields config : value) (fuel : nat) (w : list request) :
  getByID (Throw e) axios type id w = (Throw e, w)
  /\ create (Throw e) axios type fields w = (Throw e, w)
  /\ search (Throw e) axios type config w = (Throw e, w)
  /\ getOne (Throw e) axios type config w = (Throw e, w)
  /\ getAll (Throw e) axios type (S fuel) config w = (Some (Throw e), w).
Proof.
  assert (Hs : forall c, search (Throw e) axios type c w = (Throw e, w))
    by reflexivity.
  split; [reflexivity|split; [reflexivity|split; [apply Hs|split]]].
  - unfold getOne, bind. now rewrite Hs.
  - unfold getAll. cbn [getAll_loop]. unfold getAll_page, bind.
    now rewrite Hs.
Qed.

(** X5. A failure of the transport is the failure of the operation, as it
    is, and the one request has been sent. *)
Theorem transport_failure_is_passed_on (e : exn) (id : string)
  (fields config : value) (w : list request) :
  (axios w (getByID_request cfg type id) = Throw e ->
   getByID (Return cfg) axios type id w
   = (Throw e, (w ++ [getByID_request cfg type id])%list))
  /\ (axios w (create_request cfg type fields) = Throw e ->
      create (Return cfg) axios type fields w
      = (Throw e, (w ++ [create_request cfg type fields])%list))
  /\ (config <> VNull ->
      axios w (search_request cfg type config) = Throw e ->
      search (Return cfg) axios type config w
      = (Throw e, (w ++ [search_request cfg type config])%list)
      /\ getOne (Return cfg) axios type config w
         = (Throw e, (w ++ [search_request cfg type config])%list)).
Proof.
  split; [|split].
  - intros Hax. now rewrite getByID_run, Hax.
  - intros Hax. now rewrite create_run, Hax.
  - intros Hn Hax.
    assert (Hs : search (Return cfg) axios type config w
                 = (Throw e, (w ++ [search_request cfg type config])%list))
      by now rewrite search_run, Hax.
    split; [exact Hs|]. now rewrite getOne_run, Hs.
Qed.

(** X6. What [search] makes of a body: its [response] when that is there,
    and the search error when it is not, also for a body that is empty or
    [null], on which no [TypeError] is raised. *)
Theorem search_on_body (config body : value) (w : list request) :
  config <> VNull ->
  axios w (search_request cfg type config) = Return {| data := body |} ->
  (truthy (get body "response") = true ->
   search (Return cfg) axios type config w
   = (Return (get body "response"),
      (w ++ [search_request cfg type config])%list))
  /\ (truthy (get body "response") = false ->
      search (Return cfg) axios type config w
      = (Throw (Error "search request failed"),
         (w ++ [search_request cfg type config])%list)).
Proof.
  intros Hn Hax. rewrite search_run, Hax by exact Hn.
  unfold search_outcome. cbn [data]. rewrite opt_get_get.
  split; intros ->; reflexivity.
Qed.

(** X7. Whatever the transport and the configuration of the search,
    [search] never returns a value that is [undefined], [null] or
    otherwise falsy. *)
Theorem search_returns_payload (config p : value) (w : list request) :
  fst (search (Return cfg) axios type config w) = Return p ->
  truthy p = true.
Proof.
  destruct (null_or_not config) as [->|Hn]; [discriminate|].
  rewrite search_run by exact Hn. apply search_outcome_truthy.
Qed.

(** X8. [getAll] sets the cursor itself: a cursor in the configuration the
    caller passes changes nothing. *)
Theorem getAll_ignores_caller_cursor (o : gmap string value) (c : value)
  (fuel : nat) (w : list request) :
  getAll (Return cfg) axios type fuel (VObj (<["cursor" := c]> o)) w
  = getAll (Return cfg) axios type fuel (VObj o) w.
Proof.
  assert (Hpage : forall k acc w',
    getAll_page (Return cfg) axios type (VObj (<["cursor" := c]> o)) k acc w'
    = getAll_page (Return cfg) axios type (VObj o) k acc w').
  { intros k acc w'. unfold getAll_page, with_cursor. cbn [own_props].
    now rewrite insert_insert_eq. }
  unfold getAll. generalize 0. generalize (@nil value).
  revert w. induction fuel as [|fuel IH]; intros w acc k; [reflexivity|].
  cbn [getAll_loop]. rewrite Hpage.
  destruct (getAll_page _ _ _ _ _ _ _) as [[[acc' [|]]|e] w']; try reflexivity.
  apply IH.
Qed.

(** X9. Every request that [getAll] sends carries the constraints and the
    sort of the caller, and goes to the URL and under the headers, of the
    one request that a direct [search] with the same configuration
    sends. *)
Theorem getAll_keeps_search_options (o : gmap string value) (fuel : nat)
  (w w' : list request) :
  exists direct,
    sent (search (Return cfg) axios type (VObj o)) w' = [direct]
    /\ (0 < fuel -> sent (getAll (Return cfg) axios type fuel (VObj o)) w <> [])%nat
    /\ Forall (fun r =>
                 param r "constraints" = param direct "constraints"
                 /\ param r "sort_field" = param direct "sort_field"
                 /\ param r "descending" = param direct "descending"
                 /\ req_method r = req_method direct
                 /\ req_url r = req_url direct
                 /\ req_headers r = req_headers direct)
         (sent (getAll (Return cfg) axios type fuel (VObj o)) w).
Proof.
  exists (search_request cfg type (VObj o)).
  split; [now rewrite search_sent|].
  assert (Hlog : exists n, (0 < fuel -> 0 < n)%nat /\
    sent (getAll (Return cfg) axios type fuel (VObj o)) w
    = turns cfg type (VObj o) n).
  { unfold sent, getAll. change 0 with (Z.of_nat 0).
    destruct fuel as [|fuel].
    - exists 0%nat. cbn. rewrite drop_all. split; [lia|reflexivity].
    - cbn [getAll_loop]. rewrite getAll_page_run.
      destruct (search_outcome _) as [p|e];
        [destruct (less_equal (get p "remaining") 0) as [[|]|]|];
        try (exists 1%nat; cbn [snd]; rewrite drop_app_length;
             split; [lia|reflexivity]).
      replace (Z.of_nat 0 + 1) with (Z.of_nat 1) by lia.
      destruct (getAll_loop_log cfg axios type (VObj o) fuel 1
                  (Array_concat [] (get p "results"))
                  (w ++ [turn cfg type (VObj o) 0])%list) as [n Hn].
      exists (S n). rewrite Hn, <- app_assoc, drop_app_length.
      split; [lia|reflexivity]. }
  destruct Hlog as [n [Hpos Hn]]. rewrite Hn. split.
  - intros Hf. specialize (Hpos Hf). destruct n; [lia|discriminate].
  - apply Forall_forall. intros r Hr.
    apply list_elem_of_In, in_map_iff in Hr as [k [<- _]].
    unfold param, turn, search_request, with_cursor, params.
    cbn [req_params req_method req_url req_headers own_props get find fst snd
         String.eqb Ascii.eqb Bool.eqb fmap option_fmap option_map].
    rewrite !lookup_insert_ne by discriminate. repeat split.
Qed.

(** X10. A server whose pages do not report a remaining count keeps
    [getAll] paging: the comparison of [undefined] with zero is false, so
    after any number of such pages the loop has not ended. *)
Theorem getAll_without_remaining (config : value) (w : list request)
  (bodies : list value) :
  (forall k body, bodies !! k = Some body ->
     axios (w ++ turns cfg type config k)%list (turn cfg type config k)
       = Return {| data := body |}
     /\ truthy (get body "response") = true
     /\ get (get body "response") "remaining" = VUndefined) ->
  getAll (Return cfg) axios type (length bodies) config w =
    (None, (w ++ turns cfg type config (length bodies))%list).
Proof.
  intros Hax.
  replace (length bodies)
    with (length ((fun b => get b "response") <$> bodies) + 0)%nat at 1
    by (rewrite length_fmap; lia).
  unfold getAll. change 0 with (Z.of_nat 0).
  rewrite getAll_loop_continue.
  - rewrite length_fmap. reflexivity.
  - intros i p Hp. rewrite list_lookup_fmap in Hp.
    destruct (bodies !! i) as [body|] eqn:Hb; [|discriminate].
    injection Hp as <-. destruct (Hax i body Hb) as [Hr [Ht Hu]].
    unfold turns in Hr. cbn [Nat.add]. rewrite Hr, Hu. split; [|reflexivity].
    now apply search_outcome_payload.
Qed.

Lemma getAll_loop_bounded (config : value) (fuel : nat) :
  forall (from : nat) (acc : list value) (w : list request),
  exists n, (n <= fuel)%nat
    /\ snd (getAll_loop (Return cfg) axios type fuel config
              (Z.of_nat from) acc w)
       = (w ++ map (turn cfg type config) (seq from n))%list
    /\ (fst (getAll_loop (Return cfg) axios type fuel config
               (Z.of_nat from) acc w) = None -> n = fuel).
Proof.
  induction fuel as [|fuel IH]; intros from acc w.
  - exists 0%nat. cbn. rewrite app_nil_r. auto.
  - cbn [getAll_loop]. rewrite getAll_page_run.
    destruct (search_outcome _) as [p|e];
      [destruct (less_equal (get p "remaining") 0) as [[|]|]|];
      try (exists 1%nat; cbn; repeat split; [lia|discriminate]).
    replace (Z.of_nat from + 1) with (Z.of_nat (S from)) by lia.
    destruct (IH (S from) (Array_concat acc (get p "results"))
                (w ++ [turn cfg type config from])%list) as [n [Hn [Hs Hf]]].
    exists (S n). rewrite Hs. cbn [seq map]. rewrite <- app_assoc.
    repeat split; [lia|]. intros Hnone. now rewrite (Hf Hnone).
Qed.

(** X11. Whatever the transport answers, the requests of [getAll] are the
    search requests with the cursors 0, 1, ..., n-1, in this order, for
    some n within the turns allowed; while the loop has not ended, n is
    all of them. *)
Theorem getAll_cursors_are_consecutive (config : value) (fuel : nat)
  (w : list request) :
  exists n, (n <= fuel)%nat
    /\ sent (getAll (Return cfg) axios type fuel config) w
       = turns cfg type config n
    /\ (fst (getAll (Return cfg) axios type fuel config w) = None ->
        n = fuel).
Proof.
  unfold sent, getAll. change 0 with (Z.of_nat 0).
  destruct (getAll_loop_bounded config fuel 0 [] w) as [n [Hn [Hs Hf]]].
  exists n. rewrite Hs, drop_app_length. auto.
Qed.

(** X12. A page whose [results] is not an array adds that value as one
    element: a last page without [results] makes [getAll] return a
    sequence that ends in [undefined]. *)
Theorem getAll_results_not_an_array (config : value) (w : list request)
  (body v : value) (fuel : nat) :
  axios w (turn cfg type config 0) = Return {| data := body |} ->
  truthy (get body "response") = true ->
  get (get body "response") "results" = v ->
  (forall rs, v <> VArr rs) ->
  less_equal (get (get body "response") "remaining") 0 = Some true ->
  getAll (Return cfg) axios type (S fuel) config w =
    (Some (Return [v]), (w ++ [turn cfg type config 0])%list).
Proof.
  intros Hax Hp Hv Hn Hle. unfold getAll. cbn [getAll_loop].
  change 0 with (Z.of_nat 0) at 1.
  rewrite getAll_page_run, Hax, (search_outcome_payload _ Hp), Hv, Hle.
  destruct v; try reflexivity. now destruct (Hn xs).
Qed.

(** X13. [getOne] is one [search] with the configuration as it is: it
    sends what [search] sends, and fails as [search] fails. *)
Theorem getOne_searches_once (config : value) (w : list request) :
  sent (getOne (Return cfg) axios type config) w
  = sent (search (Return cfg) axios type config) w
  /\ (length (sent (getOne (Return cfg) axios type config) w) <= 1)%nat
  /\ forall e, fst (search (Return cfg) axios type config w) = Throw e ->
       fst (getOne (Return cfg) axios type config w) = Throw e.
Proof.
  split; [|split].
  - unfold sent. now rewrite getOne_run.
  - unfold sent. rewrite getOne_run. cbn [snd].
    fold (sent (search (Return cfg) axios type config) w).
    rewrite search_sent. destruct config; cbn; lia.
  - intros e He. now rewrite getOne_run, He.
Qed.

(** X14. [getOne] returns only on a payload that has a [response] of its
    own: then it is the first element of the [results] array in there, or
    [null] when the array is empty or its first element is falsy. *)
Theorem getOne_on_nested_response (config p : value) (rs : list value)
  (w : list request) :
  fst (search (Return cfg) axios type config w) = Return p ->
  get (get p "response") "results" = VArr rs ->
  fst (getOne (Return cfg) axios type config w)
  = Return (match rs with
            | [] => VNull
            | x :: _ => if truthy x then x else VNull
            end).
Proof.
  intros Hs Hr. rewrite getOne_run, Hs. cbn [fst].
  destruct (get p "response") as [| | | | | |o] eqn:Hp;
    try discriminate Hr.
  rewrite Hr. destruct rs; reflexivity.
Qed.

(** X15. What [create] returns is never empty: a returned value is the
    truthy [id] of a body whose status is the string "success". *)
Theorem create_returns_identifier (fields v : value) (w : list request) :
  fst (create (Return cfg) axios type fields w) = Return v ->
  truthy v = true
  /\ exists body,
       axios w (create_request cfg type fields) = Return {| data := body |}
       /\ get body "status" = VStr "success"
       /\ get body "id" = v.
Proof.
  rewrite create_run. cbn [fst].
  destruct (axios w _) as [[body]|e] eqn:Hax; [|discriminate].
  cbn [data]. destruct (truthy body); [|discriminate].
  destruct (strict_ne _ _) eqn:Hs; cbn [orb];
    [destruct (ToString _); discriminate|].
  destruct (truthy (get body "id")) eqn:Hi; cbn [negb];
    [|destruct (ToString _); discriminate].
  intros [= <-]. split; [exact Hi|]. exists body.
  apply strict_ne_spec in Hs. auto.
Qed.

(** X16. Under a configuration that can be read, [getByID] and [create]
    send exactly one request whatever comes back, and [search] and [save]
    send at most one. *)
Theorem operations_send_one_request (id : string) (fields config : value)
  (this : gmap string value) (w : list request) :
  sent (getByID (Return cfg) axios type id) w = [getByID_request cfg type id]
  /\ sent (create (Return cfg) axios type fields) w
     = [create_request cfg type fields]
  /\ (length (sent (search (Return cfg) axios type config) w) <= 1)%nat
  /\ (length (sent (save (Return cfg) axios this) w) <= 1)%nat.
Proof.
  unfold sent. rewrite getByID_run, create_run, save_run. cbn [snd].
  rewrite !drop_app_length. repeat split.
  - fold (sent (search (Return cfg) axios type config) w).
    rewrite search_sent. destruct config; cbn; lia.
  - destruct (ToString (prop this "type")); [destruct (truthy _)|];
      [destruct (ToString (prop this "_id"))| |]; cbn [snd];
      rewrite ?drop_app_length, ?drop_all; cbn; lia.
Qed.

(** X17. Whatever the body, an instance that [getByID] returns has the
    [type] of its class. *)
Theorem getByID_instance_has_type (id : string) (inst : gmap string value)
  (w : list request) :
  fst (getByID (Return cfg) axios type id w) = Return inst ->
  prop inst "type" = VStr type.
Proof.
  rewrite getByID_run. cbn [fst].
  destruct (axios w _) as [res|e]; [|discriminate].
  destruct (truthy (data res)); [|discriminate].
  unfold new_this, constructor, bind, ret, throw.
  destruct (bool_decide _ && negb _); cbn [fst]; [discriminate|].
  intros [= <-]. unfold prop. now rewrite lookup_insert_eq.
Qed.

(** X18. The options of [search]: constraints that are missing or falsy
    are sent as the text of the empty array and others as their text; the
    sort field is that of the sort, [undefined] without a sort; the cursor
    goes out as it came in. *)
Theorem search_options (config : value) (w : list request) :
  config <> VNull ->
  exists r,
    sent (search (Return cfg) axios type config) w = [r]
    /\ param r "constraints"
       = Some (VStr (JSON_stringify
                       (if truthy (get config "constraints")
                        then get config "constraints" else VArr [])))
    /\ param r "sort_field" = Some (get (get config "sort") "sort_field")
    /\ param r "cursor" = Some (get config "cursor")
    /\ req_method r = GET /\ req_data r = None.
Proof.
  intros Hn. exists (search_request cfg type config). rewrite search_sent.
  split; [destruct config; congruence|].
  unfold param, search_request, params, or_else. cbn. rewrite opt_get_get.
  repeat split.
Qed.

(** X19. [getAll] spreads its configuration: it pages as it does on the
    object of the configuration's own properties, so [null] pages as the
    empty configuration does, whereas [search] on [null] raises a
    [TypeError] before it sends anything. *)
Theorem getAll_spreads_configuration (config : value) (fuel : nat)
  (w : list request) :
  getAll (Return cfg) axios type fuel config w
  = getAll (Return cfg) axios type fuel (VObj (own_props config)) w
  /\ getAll (Return cfg) axios type fuel VNull w
     = getAll (Return cfg) axios type fuel (VObj ∅) w
  /\ search (Return cfg) axios type VNull w = (Throw TypeError, w).
Proof.
  assert (Hloop : forall c k acc w',
    getAll_loop (Return cfg) axios type fuel c k acc w'
    = getAll_loop (Return cfg) axios type fuel (VObj (own_props c)) k acc w').
  { intros c. induction fuel as [|f IH]; intros k acc w'; [reflexivity|].
    cbn [getAll_loop].
    change (getAll_page (Return cfg) axios type (VObj (own_props c)) k acc w')
      with (getAll_page (Return cfg) axios type c k acc w').
    destruct (getAll_page _ _ _ c k acc w') as [[[acc' [|]]|e] w''];
      try reflexivity.
    apply IH. }
  split; [apply Hloop|split; [apply (Hloop VNull)|reflexivity]].
Qed.

(** X20. On an instance whose [type] and truthy [_id] have a text, as
    strings have, the payload of [save] is the whole instance: every
    property of the instance, [_id] and [type] among them, goes out as it
    is, to the URL that ends in the text of [_id]. *)
Theorem save_sends_whole_instance (this : gmap string value)
  (type_name id : string) (w : list request) :
  truthy (prop this "_id") = true ->
  ToString (prop this "type") = Some type_name ->
  ToString (prop this "_id") = Some id ->
  exists r payload,
    sent (save (Return cfg) axios this) w = [r]
    /\ req_data r = Some payload
    /\ (forall k, k <> "__proto__" -> get payload k = prop this k)
    /\ req_url r = collection cfg type_name +:+ "/" +:+ id.
Proof.
  intros Hid Ht Hi.
  exists (save_request cfg type_name id this), (VObj (assigned (VObj this))).
  unfold sent. rewrite save_run, Ht, Hid, Hi. cbn [snd].
  rewrite drop_app_length. split; [reflexivity|split; [reflexivity|split]].
  - intros k Hk. unfold get, prop, assigned. cbn [own_props].
    now rewrite lookup_delete_ne by congruence.
  - reflexivity.
Qed.

End Further.

(** ** The operations on examples *)

Import Examples.

(** C1. [search] succeeds on a page with no result, and on a page with
    one, and [getOne] raises a [TypeError] on both: it reads [response] off
    the payload that [search] has already taken out of the body. *)
Theorem getOne_raises_on_search_result :
  (exists p,
     fst (search (Return config) (serve [page [] 0]) "order" (VObj ∅) [])
     = Return p /\ get p "results" = VArr [])
  /\ fst (getOne (Return config) (serve [page [] 0]) "order" (VObj ∅) [])
     = Throw TypeError
  /\ fst (getOne (Return config) (serve [page [named "a"] 0]) "order"
            (VObj ∅) [])
     = Throw TypeError.
Proof.
  split; [|split].
  - eexists. split; [vm_compute; reflexivity|]. reflexivity.
  - vm_compute. reflexivity.
  - vm_compute. reflexivity.
Qed.

Lemma getAll_concatenates_pages_witness :
  getAll (Return config)
    (serve [page [named "a"; named "b"] 1; page [named "c"] 0])
    "order" 5 (VObj ∅) []
  = (Some (Return [named "a"; named "b"; named "c"]),
     turns config "order" (VObj ∅) 2)
  /\ forall k, param (turn config "order" (VObj ∅) k) "cursor"
               = Some (VNum (Z.of_nat k)).
Proof.
  apply (getAll_concatenates_pages config
           (serve [page [named "a"; named "b"] 1; page [named "c"] 0])
           "order" (VObj ∅) [] [([named "a"; named "b"], 1)] [named "c"] 0 5).
  - intros [|[|k]] rs r Hk; try discriminate; injection Hk as <- <-.
    + exists (page [named "a"; named "b"] 1). split; [|split]; reflexivity.
    + exists (page [named "c"] 0). split; [|split]; reflexivity.
  - repeat constructor.
  - lia.
  - cbn. lia.
Defined.

Lemma getAll_no_match_witness :
  getAll (Return config) (serve [page [] 0]) "order" 1 open_by_date []
  = (Some (Return []), [turn config "order" open_by_date 0]).
Proof.
  apply (getAll_no_match config (serve [page [] 0]) "order" open_by_date []
           (page [] 0) 1).
  - reflexivity.
  - split; reflexivity.
  - lia.
Defined.

Lemma getAll_failure_discards_witness :
  getAll (Return config) (serve [page [named "a"] 1]) "order" 3 (VObj ∅) []
  = (Some (Throw (Raised (VStr "Network Error"))),
     turns config "order" (VObj ∅) 2).
Proof.
  apply (getAll_failure_discards config (serve [page [named "a"] 1]) "order"
           (VObj ∅) [] [page [named "a"] 1]).
  - intros [|k] body Hk; try discriminate; injection Hk as <-.
    split; [|split]; reflexivity.
  - reflexivity.
  - cbn. lia.
Defined.

Lemma create_raises_exactly_witness :
  fst (create (Return live)
         (serve [VObj (<["status" := VStr "error"]> {[ "id" := VStr "17x" ]})])
         "order" (named "a") [])
  = Throw (Error "create request failed with status: error")
  /\ fst (create (Return live) (serve [VObj {[ "id" := VStr "17x" ]}])
            "order" (named "a") [])
     = Throw (Error "create request failed with status: undefined")
  /\ fst (create (Return live)
            (serve [VObj (<["status" := VStr "success"]> {[ "id" := VStr "17x" ]})])
            "order" (named "a") [])
     = Return (VStr "17x").
Proof.
  split; [|split].
  - refine (proj1 (proj2 (proj1 (proj2 (proj2 (create_raises_exactly live
             (serve [VObj (<["status" := VStr "error"]> {[ "id" := VStr "17x" ]})])
             "order" (named "a")
             (VObj (<["status" := VStr "error"]> {[ "id" := VStr "17x" ]})) []
             _))) _ _)) "error" _);
      [reflexivity|reflexivity|left; discriminate|reflexivity].
  - refine (proj1 (proj2 (proj2 (proj1 (proj2 (proj2 (create_raises_exactly live
             (serve [VObj {[ "id" := VStr "17x" ]}])
             "order" (named "a") (VObj {[ "id" := VStr "17x" ]}) []
             _))) _ _))) _);
      [reflexivity|reflexivity|left; discriminate|reflexivity].
  - refine (proj2 (proj2 (proj2 (create_raises_exactly live
             (serve [VObj (<["status" := VStr "success"]> {[ "id" := VStr "17x" ]})])
             "order" (named "a")
             (VObj (<["status" := VStr "success"]> {[ "id" := VStr "17x" ]})) []
             _))) _ _ _);
      reflexivity.
Defined.

(** At a status that has no text, [create] raises the [TypeError] of the
    conversion, not an error whose message embeds the status. *)
Lemma create_raises_exactly_counterexample :
  get (VObj {[ "status" := untextable ]}) "status" <> VStr "success"
  /\ fst (create (Return live) (serve [VObj {[ "status" := untextable ]}])
            "order" (named "a") [])
     = Throw TypeError
  /\ ~ (exists text,
          fst (create (Return live) (serve [VObj {[ "status" := untextable ]}])
                 "order" (named "a") [])
          = Throw (Error ("create request failed with status: " +:+ text))).
Proof.
  split; [discriminate|]. split; [vm_compute; reflexivity|].
  intros [text Ht]. vm_compute in Ht. discriminate.
Qed.

Lemma search_descending_witness :
  exists r,
    sent (search (Return live) (serve [page [] 0]) "order" open_by_date) [] = [r]
    /\ param r "descending" = Some (VStr "true")
    /\ (get open_by_date "sort" = VUndefined ->
        param r "descending" = Some (VBool false))
    /\ param r "descending" <> Some (VStr "false").
Proof.
  apply (search_descending live (serve [page [] 0]) "order" open_by_date []).
  discriminate.
Defined.



Lemma getByID_body_without_response_witness :
  getByID (Return live) (serve [VObj {[ "statusCode" := VNum 404 ]}])
    "order" "17x" []
  = (Return {[ "type" := VStr "order" ]}, [getByID_request live "order" "17x"])
  /\ forall k, k <> "type" ->
       prop ({[ "type" := VStr "order" ]} : gmap string value) k = VUndefined.
Proof.
  apply (getByID_body_without_response live
           (serve [VObj {[ "statusCode" := VNum 404 ]}]) "order" "17x"
           (VObj {[ "statusCode" := VNum 404 ]}) []);
    reflexivity.
Defined.

(** The URL and the header on the two example configurations, and the
    search request of the regression test of the spec. *)
Example collection_with_version :
  collection config "order"
  = "https://shop.bubbleapps.io/version-test/api/1.1/obj/order".
Proof. reflexivity. Qed.

Example collection_without_version :
  collection live "order" = "https://shop.bubbleapps.io/api/1.1/obj/order"
  /\ authorization live = [("Authorization", "Bearer k3y")].
Proof. split; reflexivity. Qed.

Example search_open_by_date :
  req_params (search_request live "order" open_by_date)
  = [("constraints", VStr (json_text (get open_by_date "constraints")));
     ("sort_field", VStr "createdAt");
     ("descending", VStr "true");
     ("cursor", VUndefined)].
Proof. reflexivity. Qed.

(** Without the break, the loop is still running when the fuel is out. *)
Example getAll_runs_on :
  fst (getAll (Return live) (serve [page [] 1; page [] 1; page [] 1]) "order"
         3 (VObj ∅) [])
  = None.
Proof. vm_compute. reflexivity. Qed.

(** ** The further properties on examples *)

Lemma getByID_returns_record_witness :
  exists inst : gmap string value,
    getByID (Return live)
      (serve [found (<["_id" := VStr "17x"]> {[ "type" := VStr "other" ]})])
      "order" "17x" []
    = (Return inst, [getByID_request live "order" "17x"])
    /\ inst !! "type" = Some (VStr "order")
    /\ inst !! "__proto__" = None
    /\ forall k, k <> "type" -> k <> "__proto__" ->
         inst !! k
         = (<["_id" := VStr "17x"]> {[ "type" := VStr "other" ]} : gmap string value)
             !! k.
Proof.
  apply (getByID_returns_record live
           (serve [found (<["_id" := VStr "17x"]> {[ "type" := VStr "other" ]})])
           "order" "17x"
           (found (<["_id" := VStr "17x"]> {[ "type" := VStr "other" ]}))
           (<["_id" := VStr "17x"]> {[ "type" := VStr "other" ]}) []);
    reflexivity.
Defined.

Lemma getByID_no_body_witness :
  getByID (Return live) (serve [VStr ""]) "order" "17x" []
  = (Throw (Error "Unexpected response from bubble: no body"),
     [getByID_request live "order" "17x"]).
Proof.
  apply (getByID_no_body live (serve [VStr ""]) "order" "17x" (VStr "") []);
    reflexivity.
Defined.

Lemma getByID_getter_named_field_witness :
  getByID (Return live) (serve [found {[ "headers" := VStr "h" ]}])
    "order" "17x" []
  = (Throw TypeError, [getByID_request live "order" "17x"]).
Proof.
  refine (proj1 (getByID_getter_named_field live
                   (serve [found {[ "headers" := VStr "h" ]}]) "order" "17x"
                   (found {[ "headers" := VStr "h" ]})
                   {[ "headers" := VStr "h" ]} [] _ _ _) _).
  - reflexivity.
  - reflexivity.
  - right. exists (VStr "h"). reflexivity.
  - reflexivity.
Defined.

Lemma transport_failure_is_passed_on_witness :
  getByID (Return live) (serve []) "order" "17x" []
  = (Throw (Raised (VStr "Network Error")),
     [getByID_request live "order" "17x"]).
Proof.
  apply (proj1 (transport_failure_is_passed_on live (serve []) "order"
                  (Raised (VStr "Network Error")) "17x" VNull VNull [])).
  reflexivity.
Defined.

Lemma search_on_body_witness :
  search (Return live) (serve [VNull]) "order" open_by_date []
  = (Throw (Error "search request failed"),
     [search_request live "order" open_by_date]).
Proof.
  refine (proj2 (search_on_body live (serve [VNull]) "order" open_by_date
                   VNull [] _ _) _).
  - discriminate.
  - reflexivity.
  - reflexivity.
Defined.

Lemma search_returns_payload_witness :
  truthy (get (page [named "a"] 0) "response") = true.
Proof.
  apply (search_returns_payload live (serve [page [named "a"] 0]) "order"
           (VObj ∅) (get (page [named "a"] 0) "response") []).
  reflexivity.
Defined.

Lemma getAll_without_remaining_witness :
  getAll (Return live)
    (serve [page_without_remaining [named "a"];
            page_without_remaining [named "b"]])
    "order" 2 (VObj ∅) []
  = (None, turns live "order" (VObj ∅) 2).
Proof.
  apply (getAll_without_remaining live
           (serve [page_without_remaining [named "a"];
                   page_without_remaining [named "b"]])
           "order" (VObj ∅) []
           [page_without_remaining [named "a"];
            page_without_remaining [named "b"]]).
  intros [|[|k]] body Hk; try discriminate; injection Hk as <-;
    (split; [|split]; reflexivity).
Defined.

Lemma getAll_results_not_an_array_witness :
  getAll (Return live)
    (serve [VObj {[ "response" := VObj {[ "remaining" := VNum 0 ]} ]}])
    "order" 1 (VObj ∅) []
  = (Some (Return [VUndefined]), [turn live "order" (VObj ∅) 0]).
Proof.
  apply (getAll_results_not_an_array live
           (serve [VObj {[ "response" := VObj {[ "remaining" := VNum 0 ]} ]}])
           "order" (VObj ∅) []
           (VObj {[ "response" := VObj {[ "remaining" := VNum 0 ]} ]})
           VUndefined 0).
  - reflexivity.
  - reflexivity.
  - reflexivity.
  - discriminate.
  - reflexivity.
Defined.

Lemma getOne_on_nested_response_witness :
  fst (getOne (Return live) (serve [nested_page [named "a"; named "b"]])
         "order" (VObj ∅) [])
  = Return (named "a").
Proof.
  apply (getOne_on_nested_response live
           (serve [nested_page [named "a"; named "b"]]) "order" (VObj ∅)
           (get (nested_page [named "a"; named "b"]) "response")
           [named "a"; named "b"] []);
    reflexivity.
Defined.

Lemma create_returns_identifier_witness :
  truthy (VStr "17x") = true
  /\ exists body,
       serve [created "17x"] [] (create_request live "order" (named "a"))
       = Return {| data := body |}
       /\ get body "status" = VStr "success"
       /\ get body "id" = VStr "17x".
Proof.
  apply (create_returns_identifier live (serve [created "17x"]) "order"
           (named "a") (VStr "17x") []).
  reflexivity.
Defined.

Lemma getByID_instance_has_type_witness :
  prop (<["type" := VStr "order"]> {[ "_id" := VStr "17x" ]} : gmap string value)
    "type"
  = VStr "order".
Proof.
  apply (getByID_instance_has_type live
           (serve [found {[ "_id" := VStr "17x" ]}]) "order" "17x"
           (<["type" := VStr "order"]> {[ "_id" := VStr "17x" ]}) []).
  reflexivity.
Defined.

Lemma search_options_witness :
  exists r,
    sent (search (Return live) (serve []) "order" (VObj ∅)) [] = [r]
    /\ param r "constraints" = Some (VStr "[]")
    /\ param r "sort_field" = Some VUndefined
    /\ param r "cursor" = Some VUndefined
    /\ req_method r = GET /\ req_data r = None.
Proof.
  assert (Hn : VObj ∅ <> VNull) by discriminate.
  exact (search_options live (serve []) "order" (VObj ∅) [] Hn).
Defined.

Lemma save_sends_whole_instance_witness :
  exists r payload,
    sent (save (Return live) (serve [VStr ""])
            (<["_id" := VStr "17x"]> {[ "type" := VStr "order" ]})) [] = [r]
    /\ req_data r = Some payload
    /\ (forall k, k <> "__proto__" ->
          get payload k
          = prop (<["_id" := VStr "17x"]> {[ "type" := VStr "order" ]}) k)
    /\ req_url r = "https://shop.bubbleapps.io/api/1.1/obj/order/17x".
Proof.
  assert (Hid : truthy (prop (<["_id" := VStr "17x"]>
                                ({[ "type" := VStr "order" ]} : gmap string value))
                          "_id") = true) by reflexivity.
  exact (save_sends_whole_instance live (serve [VStr ""])
           (<["_id" := VStr "17x"]> {[ "type" := VStr "order" ]})
           "order" "17x" [] Hid eq_refl eq_refl).
Defined.

(** The conversions on examples: the text of an array, a value without a
    text, and a page whose remaining count has none, on which the
    comparison of the loop raises. *)
Example text_of_values :
  ToString (VArr [VNum 1; VNull; VArr [VStr "a"; VObj ∅]])
  = Some "1,,a,[object Object]"
  /\ ToString untextable = None
  /\ ToString (VArr [VStr "a"; untextable]) = None.
Proof. repeat split. Qed.

Example getAll_remaining_without_text :
  getAll (Return live)
    (serve [VObj {[ "response" :=
                      VObj (<["results" := VArr []]>
                              {[ "remaining" := untextable ]}) ]}])
    "order" 3 (VObj ∅) []
  = (Some (Throw TypeError), [turn live "order" (VObj ∅) 0]).
Proof. vm_compute. reflexivity. Qed.

(** A record whose [__proto__] comes first: the instance leaves the class,
    and [headers] becomes a property of its own. *)
Example getByID_prototype_first :
  fst (getByID (Return live)
         (serve [found (<["__proto__" := VObj ∅]> {[ "headers" := VStr "h" ]})])
         "order" "17x" [])
  = Return (<["type" := VStr "order"]> {[ "headers" := VStr "h" ]}).
Proof. vm_compute. reflexivity. Qed.
